(** * Colouring London: building data access (app/src/building.js)

    A shallow embedding of the revision-tracked building store:
    - JavaScript values and plain objects (database rows, request bodies,
      patches);
    - [compare], the field-level diff;
    - the database handle ([db.tx], [t.one], [t.none]) as a state-and-error
      monad over the three tables the module touches;
    - [saveBuilding] and [likeBuilding].

    Promises are modelled by their settled outcome: a [.then] chain is a
    monadic bind, [.catch] a handler on the rejected branch, and a callback
    that throws rejects the promise it was to resolve.  The [console.error]
    line of the handlers is not modelled.

    The file is module code (it has [import] and [export]) and so runs in
    strict mode, where an assignment to a name that nothing declares throws
    a ReferenceError.

    Two things come from outside the module and are taken at their
    documented behaviour.  The pg-promise handle: [db.tx] issues BEGIN, runs
    its callback, and issues COMMIT or ROLLBACK as the callback's promise
    resolves or rejects; it takes the transaction mode from the [mode]
    property of its options; [t.one] and [t.none] reject on a result of the
    wrong size.  The store: every statement is modelled by the rows it reads
    and writes, one transaction at a time. *)

From Stdlib Require Import ZArith Bool.
From Stdlib Require Import Floats.SpecFloat.
From Stdlib Require Import DecimalString DecimalZ.
From stdpp Require Import gmap strings list fin_maps.

Local Open Scope Z_scope.

(** ** JavaScript values *)

Module JS.

(** The values a row or a parsed request body can hold.  Numbers are IEEE
    doubles ([spec_float], at precision 53); arrays and nested objects are
    held by reference, which is all that [===] looks at. *)
Inductive value : Type :=
  | VUndefined
  | VNull
  | VBool (b : bool)
  | VNum (x : spec_float)
  | VStr (s : string)
  | VRef (l : positive).

(** [a === b]: no coercion between types, IEEE comparison on numbers (so
    [NaN === NaN] is false and [0 === -0] is true), identity on references. *)
Definition strict_eq (a b : value) : bool :=
  match a, b with
  | VUndefined, VUndefined => true
  | VNull, VNull => true
  | VBool x, VBool y => Bool.eqb x y
  | VNum x, VNum y => SFeqb x y
  | VStr s, VStr t => String.eqb s t
  | VRef l, VRef m => Pos.eqb l m
  | _, _ => false
  end.

(** [a !== b] *)
Definition strict_neq (a b : value) : bool := negb (strict_eq a b).

(** A plain object: its own enumerable string-keyed properties. *)
Abbreviation obj := (gmap string value).

(** [o.key] for the fixed keys of this module ([revision_id], [log_id],
    [likes]), and a column of a row: the object's own property, [undefined]
    when it has none.  [Object.prototype] has no property of those names. *)
Definition get (o : obj) (key : string) : value :=
  default VUndefined (o !! key).

(** [Object.entries(o)] *)
Definition entries (o : obj) : list (string * value) := map_to_list o.

End JS.

Import JS.

(** ** Completions *)

(** What a synchronous call can throw. *)
Inductive exception : Set :=
  | ReferenceError (name : string).

(** How a synchronous call ends: it returns a value, or it throws. *)
Inductive completion (A : Type) : Type :=
  | Normal (a : A)
  | Throw (e : exception).
Arguments Normal {A} a.
Arguments Throw {A} e.

#[global] Instance completion_bind : MBind completion :=
  λ A B k c, match c with Normal a => k a | Throw e => Throw e end.

(** [name = ...] in strict code, for a name the function itself does not
    declare: the assignment goes through when an enclosing scope binds the
    name and throws otherwise. *)
Definition assign_name (scope : gset string) (name : string) : completion unit :=
  if bool_decide (name ∈ scope) then Normal tt else Throw (ReferenceError name).

(** [Object.prototype], which rows, parsed bodies and object literals inherit
    from: its properties, each a built-in held by reference. *)
Definition Object_prototype : obj :=
  list_to_map [
    ("constructor", VRef 1); ("__defineGetter__", VRef 2);
    ("__defineSetter__", VRef 3); ("hasOwnProperty", VRef 4);
    ("__lookupGetter__", VRef 5); ("__lookupSetter__", VRef 6);
    ("isPrototypeOf", VRef 7); ("propertyIsEnumerable", VRef 8);
    ("toString", VRef 9); ("valueOf", VRef 10);
    ("__proto__", VRef 11); ("toLocaleString", VRef 12) ]%positive.

(** [o[key]] for a key that is not known beforehand: the object's own
    property, or else what it inherits. *)
Definition member (o : obj) (key : string) : value :=
  match o !! key with
  | Some v => v
  | None => get Object_prototype key
  end.

(** [o[key] = v] on an object that began as [{}]: an own property, except at
    [__proto__], where the inherited setter runs and no own property
    appears. *)
Definition put (o : obj) (key : string) (v : value) : obj :=
  if decide (key = "__proto__") then o else <[key := v]> o.

(** ** The patch engine *)

(** The loop's test, [old_obj[key] !== value && whitelist.has(key)]. *)
Definition changed (old_obj : obj) (whitelist : gset string)
    (key : string) (value : value) : bool :=
  strict_neq (member old_obj key) value && bool_decide (key ∈ whitelist).

(** The body of the [for ... of Object.entries(new_obj)] loop of [compare],
    acting on the two accumulators [reverse_patch] and [forward_patch]. *)
Definition compare_step (old_obj : obj) (whitelist : gset string)
    (acc : obj * obj) (entry : string * value) : obj * obj :=
  let '(reverse_patch, forward_patch) := acc in
  let '(key, value) := entry in
  if changed old_obj whitelist key value
  then (put reverse_patch key (member old_obj key), put forward_patch key value)
  else (reverse_patch, forward_patch).

(** The loop of [compare] and its [return], from two empty accumulators. *)
Definition compare_loop (old_obj new_obj : obj) (whitelist : gset string)
    : obj * obj :=
  let '(reverse_patch, forward_patch) :=
    foldl (compare_step old_obj whitelist) (∅, ∅) (entries new_obj) in
  (forward_patch, reverse_patch).

(** The names the module binds at its top level: its import, its constants
    and its functions. *)
Definition module_bindings : gset string :=
  list_to_set [
    "db"; "TransactionMode"; "isolationLevel"; "serializable";
    "queryBuildingsAtPoint"; "queryBuildingsByReference"; "getBuildingById";
    "saveBuilding"; "likeBuilding"; "BUILDING_FIELD_WHITELIST"; "compare" ].

(** The names in scope in the body of [compare]: its parameters, and what
    the module binds.  The global object is taken to hold no property called
    [reverse_patch] or [forward_patch]. *)
Definition compare_scope : gset string :=
  {[ "old_obj"; "new_obj"; "whitelist" ]} ∪ module_bindings.

(** [compare(old_obj, new_obj, whitelist)].  Its first two statements,
    [reverse_patch = {}] and [forward_patch = {}], assign to names that are
    declared nowhere; the loop and [return [forward_patch, reverse_patch]]
    come after them. *)
Definition compare (old_obj new_obj : obj) (whitelist : gset string)
    : completion (obj * obj) :=
  _ ← assign_name compare_scope "reverse_patch";
  _ ← assign_name compare_scope "forward_patch";
  Normal (compare_loop old_obj new_obj whitelist).

(** Shallow merge of a patch into a row, as a SET list applies it: the
    patch's keys win. *)
Definition merge_patch (patch record : obj) : obj := patch ∪ record.

(** ** The database handle *)

(** [pgp.txMode.isolationLevel] *)
Module isolationLevel.
Inductive t : Set := none | serializable | repeatableRead | readCommitted.
End isolationLevel.

(** [pgp.txMode.TransactionMode] *)
Record TransactionMode : Set := {
  tiLevel : isolationLevel.t;
  readOnly : bool
}.

(** [const serializable = new TransactionMode({tiLevel: isolationLevel.serializable,
    readOnly: false})] *)
Definition serializable : TransactionMode :=
  {| tiLevel := isolationLevel.serializable; readOnly := false |}.

(** A row of [logs].  The patches are kept as the objects bound to
    [$1:jsonb] and [$2:jsonb]; their JSON text is not modelled.
    [likeBuilding] names no [reverse_patch] column, which leaves it NULL. *)
Record log_row : Type := {
  log_id : Z;
  forward_patch : obj;
  reverse_patch : option obj;
  log_building_id : value;
  log_user_id : value
}.

(** A row of [building_user_likes]. *)
Record like_row : Type := {
  like_building_id : value;
  like_user_id : value
}.

(** The state behind [db]: the three tables, the sequence that numbers the
    log, and two pieces of the environment: [link], the number of statements
    the connection will still carry ([None]: it stays up), and [begun], the
    mode of every BEGIN issued so far. *)
Record db : Type := {
  buildings : list obj;
  logs : list log_row;
  building_user_likes : list like_row;
  logs_log_id_seq : Z;
  link : option nat;
  begun : list (option TransactionMode)
}.

(** The part of the state a reader of the database can see. *)
Definition tables (d : db) : list obj * list log_row * list like_row :=
  (buildings d, logs d, building_user_likes d).

(** Why a query promise rejects. *)
Inductive error : Set :=
  | noData            (* QueryResultError: a row was expected, none came *)
  | multiple          (* QueryResultError: one row was expected, several came *)
  | notEmpty          (* QueryResultError: no row was expected, some came *)
  | unique_violation  (* the store refused a duplicate key *)
  | connection_lost   (* the statement never reached the store *)
  | thrown (e : exception).  (* a callback threw *)

(** A settled promise. *)
Inductive outcome (A : Type) : Type :=
  | Resolved (a : A)
  | Rejected (e : error).
Arguments Resolved {A} a.
Arguments Rejected {A} e.

(** A step of a task: runs against the database and settles. *)
Definition task (A : Type) : Type := db → outcome A * db.

(** [p.then(k)] *)
Definition and_then {A B : Type} (p : task A) (k : A → task B) : task B :=
  λ d, match p d with
       | (Resolved a, d') => k a d'
       | (Rejected e, d') => (Rejected e, d')
       end.

#[global] Instance task_bind : MBind task := λ A B k p, and_then p k.

(** A PostgreSQL bigint as JavaScript receives it: its decimal text. *)
Definition bigint (n : Z) : value := VStr (NilZero.string_of_int (Z.to_int n)).

(** An integer as a JavaScript number: the double nearest to it. *)
Definition num (z : Z) : value := VNum (binary_normalize 53 1024 z 0 false).

(** A bound parameter as the store receives it: [undefined] is sent as NULL. *)
Definition sql_param (v : value) : value :=
  match v with VUndefined => VNull | _ => v end.

(** SQL [column = $n] as a WHERE condition.  NULL never satisfies it;
    scalars of one type match when they are the same value.  Coercion between
    a text parameter and a numeric column is not modelled: identifiers are
    compared in the representation the store hands out. *)
Definition sql_eq (column param : value) : bool :=
  match column, sql_param param with
  | VBool x, VBool y => Bool.eqb x y
  | VNum x, VNum y => SFeqb x y
  | VStr s, VStr t => String.eqb s t
  | _, _ => false
  end.

Definition with_link (l : option nat) (d : db) : db :=
  {| buildings := buildings d; logs := logs d;
     building_user_likes := building_user_likes d;
     logs_log_id_seq := logs_log_id_seq d;
     link := l; begun := begun d |}.

Definition with_begun (mode : option TransactionMode) (d : db) : db :=
  {| buildings := buildings d; logs := logs d;
     building_user_likes := building_user_likes d;
     logs_log_id_seq := logs_log_id_seq d;
     link := link d; begun := begun d ++ [mode] |}.

(** Sending one statement: it fails when the connection is gone, and
    otherwise uses up one of the statements the connection will carry. *)
Definition send {A : Type} (statement : db → outcome A * db) : task A :=
  λ d, match link d with
       | None => statement d
       | Some O => (Rejected connection_lost, d)
       | Some (S n) => statement (with_link (Some n) d)
       end.

(** [t.one(query, values)]: resolves with the single row of the result. *)
Definition one (statement : db → outcome (list obj) * db) : task obj :=
  rows ← send statement;
  (λ d, match rows with
        | [] => (Rejected noData, d)
        | [row] => (Resolved row, d)
        | _ => (Rejected multiple, d)
        end) : task obj.

(** [t.none(query, values)]: resolves when the result has no row. *)
Definition none (statement : db → outcome (list obj) * db) : task unit :=
  rows ← send statement;
  (λ d, match rows with
        | [] => (Resolved tt, d)
        | _ => (Rejected notEmpty, d)
        end) : task unit.

(** What ROLLBACK leaves: the tables as they were at BEGIN.  A value drawn
    from the sequence is not given back, and the environment moves on. *)
Definition rollback (at_begin now : db) : db :=
  {| buildings := buildings at_begin; logs := logs at_begin;
     building_user_likes := building_user_likes at_begin;
     logs_log_id_seq := logs_log_id_seq now;
     link := link now; begun := begun now |}.

(** BEGIN in the mode the options carry.  The library reads the mode from
    the [mode] property of the options object and begins in the store's
    default mode when there is none. *)
Definition begin (options : gmap string TransactionMode) : task unit :=
  λ d, send (λ d', (Resolved tt, d')) (with_begun (options !! "mode") d).

Definition commit : task unit := send (λ d, (Resolved tt, d)).

(** [db.tx(options, cb)]: BEGIN, the callback, then COMMIT when the callback's
    promise resolves and ROLLBACK when it rejects. *)
Definition tx {A : Type} (options : gmap string TransactionMode) (cb : task A)
    : task A :=
  λ d, match begin options d with
       | (Rejected e, d1) => (Rejected e, d1)
       | (Resolved _, d1) =>
           match cb d1 with
           | (Rejected e, d2) => (Rejected e, rollback d1 d2)
           | (Resolved a, d2) =>
               match commit d2 with
               | (Rejected e, d3) => (Rejected e, rollback d1 d3)
               | (Resolved _, d3) => (Resolved a, d3)
               end
           end
       end.

(** [.catch(function(error){ console.error(error); return undefined; })]:
    [None] is [undefined]. *)
Definition catch_undefined {A : Type} (settled : outcome A) : option A :=
  match settled with
  | Resolved a => Some a
  | Rejected _ => None
  end.

(** A synchronous call made inside a [.then] callback: what it returns goes
    on, what it throws rejects the promise. *)
Definition callback {A : Type} (c : completion A) : task A :=
  λ d, match c with
       | Normal a => (Resolved a, d)
       | Throw e => (Rejected (thrown e), d)
       end.

(** A task that issues no BEGIN of its own. *)
Definition keeps_begun {A : Type} (p : task A) : Prop :=
  ∀ d, begun (p d).2 = begun d.

(** ** The statements *)

(** The WHERE clause [building_id = $1 and revision_id = $2]. *)
Definition is_revision (building_id revision_id : value) (row : obj) : bool :=
  sql_eq (get row "building_id") building_id
  && sql_eq (get row "revision_id") revision_id.

(** The WHERE clause [building_id = $1]. *)
Definition is_building (building_id : value) (row : obj) : bool :=
  sql_eq (get row "building_id") building_id.

Definition with_buildings (rows : list obj) (d : db) : db :=
  {| buildings := rows; logs := logs d;
     building_user_likes := building_user_likes d;
     logs_log_id_seq := logs_log_id_seq d;
     link := link d; begun := begun d |}.

(** [SELECT * FOR UPDATE FROM buildings WHERE building_id = $1 and
    revision_id = $2].  The statement is read as the locking select it is
    meant to be, the rows that satisfy the WHERE clause.  PostgreSQL's
    grammar wants the locking clause after the WHERE clause and would refuse
    this text; [saveBuilding] settles the same way in both readings, since
    its callback rejects whether the row is found or not. *)
Definition select_for_update (building_id revision_id : value)
    : db → outcome (list obj) * db :=
  λ d, (Resolved (filter (λ row, is_revision building_id revision_id row = true)
                         (buildings d)), d).

(** Modelled from the spec: the column defaults of [logs] are not in the
    source; the entry's identifier is the next value of a sequence owned by
    the store, which only ever moves forward.

    [INSERT INTO logs (forward_patch, reverse_patch, building_id, user_id)
     VALUES (...) RETURNING log_id] *)
Definition insert_log (forward : obj) (reverse : option obj)
    (building_id user_id : value) : db → outcome (list obj) * db :=
  λ d, let id := logs_log_id_seq d in
       (Resolved [ {[ "log_id" := bigint id ]} ],
        {| buildings := buildings d;
           logs := logs d ++ [ {| log_id := id; forward_patch := forward;
                                  reverse_patch := reverse;
                                  log_building_id := sql_param building_id;
                                  log_user_id := sql_param user_id |} ];
           building_user_likes := building_user_likes d;
           logs_log_id_seq := id + 1;
           link := link d; begun := begun d |}).

(** The SET list [revision_id = $1, $2:raw] where [$2] is
    [helpers.sets(forward)]: one assignment per property of the patch, none
    for an empty patch.  The values are stored as bound; what the column
    types make of them is the schema's business, which is not in the
    source. *)
Definition set_revision_and (sets : obj) (revision_id : value) (row : obj) : obj :=
  <[ "revision_id" := sql_param revision_id ]> (merge_patch (sql_param <$> sets) row).

(** [UPDATE buildings SET revision_id = $1, $2:raw
     WHERE building_id = $3 AND revision_id = $4 RETURNING *] *)
Definition update_revision (revision_id : value) (sets : obj)
    (building_id previous_revision_id : value) : db → outcome (list obj) * db :=
  λ d, let hit row := is_revision building_id previous_revision_id row in
       (Resolved (set_revision_and sets revision_id
                    <$> filter (λ row, hit row = true) (buildings d)),
        with_buildings
          ((λ row, if hit row then set_revision_and sets revision_id row else row)
             <$> buildings d) d).

(** The row is the like of this record by this principal. *)
Definition has_liked (building_id user_id : value) (l : like_row) : bool :=
  sql_eq (like_building_id l) building_id && sql_eq (like_user_id l) user_id.

(** Modelled from the spec: the declaration of [building_user_likes] is not
    in the source; a like is unique per principal and record, and the store
    refuses a second one.

    [INSERT INTO building_user_likes ( building_id, user_id ) VALUES ($1, $2)] *)
Definition insert_like (building_id user_id : value)
    : db → outcome (list obj) * db :=
  λ d, if existsb (has_liked building_id user_id) (building_user_likes d)
       then (Rejected unique_violation, d)
       else (Resolved [],
             {| buildings := buildings d; logs := logs d;
                building_user_likes :=
                  building_user_likes d
                  ++ [ {| like_building_id := sql_param building_id;
                          like_user_id := sql_param user_id |} ];
                logs_log_id_seq := logs_log_id_seq d;
                link := link d; begun := begun d |}).

(** [SELECT count( * ) as likes FROM building_user_likes WHERE building_id = $1] *)
Definition count_likes (building_id : value) : db → outcome (list obj) * db :=
  λ d, (Resolved
          [ {[ "likes" :=
                 bigint (Z.of_nat (length
                   (filter (λ l, sql_eq (like_building_id l) building_id = true)
                           (building_user_likes d)))) ]} ], d).

(** [UPDATE buildings SET revision_id = $1, likes_total = $2
     WHERE building_id = $3 RETURNING *] *)
Definition set_likes (revision_id likes : value) (row : obj) : obj :=
  <[ "likes_total" := sql_param likes ]> (<[ "revision_id" := sql_param revision_id ]> row).

Definition update_likes (revision_id likes building_id : value)
    : db → outcome (list obj) * db :=
  λ d, let hit row := is_building building_id row in
       (Resolved (set_likes revision_id likes
                    <$> filter (λ row, hit row = true) (buildings d)),
        with_buildings
          ((λ row, if hit row then set_likes revision_id likes row else row)
             <$> buildings d) d).

(** ** The module's functions *)

Definition BUILDING_FIELD_WHITELIST : gset string :=
  list_to_set [
    "ref_toid"; "ref_osm_id";
    "location_name"; "location_number"; "location_street";
    "location_line_two"; "location_town"; "location_postcode";
    "location_latitude"; "location_longitude";
    "date_year"; "date_lower"; "date_upper"; "date_source";
    "facade_year"; "facade_upper"; "facade_lower"; "facade_source";
    "size_storeys_attic"; "size_storeys_core"; "size_storeys_basement";
    "size_height_apex"; "size_floor_area_ground"; "size_floor_area_total";
    "size_width_frontage" ].

(** The three [delete building.*] statements at the head of [saveBuilding]. *)
Definition strip_read_only (building : obj) : obj :=
  delete "geometry_id" (delete "revision_id" (delete "building_id" building)).

(** The callback handed to [db.tx] by [saveBuilding]. *)
Definition save_steps (building_id previous_revision_id : value) (building : obj)
    (user_id : value) : task obj :=
  old_building ← one (select_for_update building_id previous_revision_id);
  patches ← callback (compare old_building building BUILDING_FIELD_WHITELIST);
  let forward := patches.1 in
  let reverse := patches.2 in
  revision ← one (insert_log forward (Some reverse) building_id user_id);
  let sets := forward in
  one (update_revision (get revision "log_id") sets building_id previous_revision_id).

(** [saveBuilding(building_id, building, user_id)].  The caller's [building]
    object is changed in place, so the function returns, with the settled
    value of its promise, that object as the call leaves it. *)
Definition saveBuilding (building_id : value) (building : obj) (user_id : value)
    (d : db) : option obj * obj * db :=
  let previous_revision_id := get building "revision_id" in
  let building := strip_read_only building in
  let '(settled, d') :=
    tx ∅ (save_steps building_id previous_revision_id building user_id) d in
  (catch_undefined settled, building, d').

(** The callback handed to [db.tx] by [likeBuilding]. *)
Definition like_steps (building_id user_id : value) : task obj :=
  _ ← none (insert_like building_id user_id);
  building ← one (count_likes building_id);
  revision ← one (insert_log {[ "likes_total" := get building "likes" ]} None
                             building_id user_id);
  one (update_likes (get revision "log_id") (get building "likes") building_id).

(** [likeBuilding(building_id, user_id)]: the options object is
    [{serializable}], that is [{serializable: serializable}]. *)
Definition likeBuilding (building_id user_id : value) (d : db) : option obj * db :=
  let '(settled, d') :=
    tx {[ "serializable" := serializable ]} (like_steps building_id user_id) d in
  (catch_undefined settled, d').

(** ** A worked history

    A record at revision 5 with three storeys, and the same record at
    revision 6 with four; alice and bob both read revision 5, she asks for
    four storeys and he for five. *)

Definition storeys_3 : obj :=
  {[ "size_storeys_core" := num 3; "location_town" := VStr "London" ]}.

Definition storeys_4 : obj :=
  {[ "size_storeys_core" := num 4; "location_town" := VStr "London" ]}.

Definition building_1_at_5 : obj :=
  {[ "building_id" := num 1; "revision_id" := bigint 5; "geometry_id" := num 7;
     "size_storeys_core" := num 3; "likes_total" := num 0 ]}.

Definition building_1_at_6 : obj :=
  {[ "building_id" := num 1; "revision_id" := bigint 6; "geometry_id" := num 7;
     "size_storeys_core" := num 4; "likes_total" := num 0 ]}.

Definition edit_to_4 : obj :=
  {[ "building_id" := num 1; "revision_id" := bigint 5; "geometry_id" := num 7;
     "size_storeys_core" := num 4 ]}.

Definition edit_to_5 : obj :=
  {[ "building_id" := num 1; "revision_id" := bigint 5; "geometry_id" := num 7;
     "size_storeys_core" := num 5 ]}.

Definition db_at_5 : db :=
  {| buildings := [building_1_at_5]; logs := []; building_user_likes := [];
     logs_log_id_seq := 6; link := None; begun := [] |}.

(** The same database behind a connection that is down. *)
Definition db_at_5_down : db :=
  {| buildings := [building_1_at_5]; logs := []; building_user_likes := [];
     logs_log_id_seq := 6; link := Some O; begun := [] |}.

Definition db_at_6 : db :=
  {| buildings := [building_1_at_6];
     logs := [ {| log_id := 6;
                  forward_patch := {[ "size_storeys_core" := num 4 ]};
                  reverse_patch := Some {[ "size_storeys_core" := num 3 ]};
                  log_building_id := num 1; log_user_id := VStr "alice" |} ];
     building_user_likes := [];
     logs_log_id_seq := 7; link := None; begun := [None] |}.

(** The database once alice has liked building 1. *)
Definition db_liked : db := (likeBuilding (num 1) (VStr "alice") db_at_5).2.

(** ** The read functions *)

(** [db.manyOrNone(query, values)]: resolves with the rows, however many. *)
Definition manyOrNone (statement : db → outcome (list obj) * db)
    : task (list obj) :=
  send statement.

(** [SELECT * FROM buildings WHERE building_id = $1] *)
Definition select_building (building_id : value)
    : db → outcome (list obj) * db :=
  λ d, (Resolved (filter (λ row, is_building building_id row = true)
                         (buildings d)), d).

(** [getBuildingById(id)] *)
Definition getBuildingById (id : value) (d : db) : option obj * db :=
  let '(settled, d') := one (select_building id) d in
  (catch_undefined settled, d').

(** What [queryBuildingsByReference] hands back: a promise, given here by
    the value it settles to behind its [.catch], or a plain object. *)
Inductive reference_result : Type :=
  | Promised (settled : option (list obj))
  | Returned (o : obj).

(** [queryBuildingsByReference(key, id)].  The two SELECT statements are
    parameters: the first names a table alias its FROM clause does not
    declare, the second reads [building_properties], a table this module
    never writes. *)
Definition queryBuildingsByReference
    (select_by_toid select_by_uprn : value → db → outcome (list obj) * db)
    (key id : value) (d : db) : reference_result * db :=
  if strict_eq key (VStr "toid") then
    let '(settled, d') := manyOrNone (select_by_toid id) d in
    (Promised (catch_undefined settled), d')
  else if strict_eq key (VStr "uprn") then
    let '(settled, d') := manyOrNone (select_by_uprn id) d in
    (Promised (catch_undefined settled), d')
  else (Returned {[ "error" := VStr "Key must be UPRN or TOID" ]}, d).

(** ** Histories *)

(** A call of one of the two functions that write. *)
Inductive call : Type :=
  | Save (building_id : value) (building : obj) (user_id : value)
  | Like (building_id user_id : value).

Definition run_call (c : call) (d : db) : option obj * db :=
  match c with
  | Save building_id building user_id =>
      let '(result, _, d') := saveBuilding building_id building user_id d in
      (result, d')
  | Like building_id user_id => likeBuilding building_id user_id d
  end.

(** Calls made one after another: the settled values in order, and the
    database at the end. *)
Fixpoint run_calls (calls : list call) (d : db) : list (option obj) * db :=
  match calls with
  | [] => ([], d)
  | c :: rest =>
      let '(result, d1) := run_call c d in
      let '(results, d2) := run_calls rest d1 in
      (result :: results, d2)
  end.

(** How many of the settled values are rows. *)
Definition resolved (results : list (option obj)) : nat :=
  length (filter (λ r : option obj, is_Some r) results).

(** The number of likes the table holds for a building, as
    [count( * ) ... WHERE building_id = $1] counts them. *)
Definition likes_of (building_id : value) (d : db) : Z :=
  Z.of_nat (length (filter (λ l, sql_eq (like_building_id l) building_id = true)
                           (building_user_likes d))).

(** The log entry [likeBuilding] writes. *)
Definition like_entry (building_id user_id likes : value) (id : Z) : log_row :=
  {| log_id := id; forward_patch := {[ "likes_total" := likes ]};
     reverse_patch := None;
     log_building_id := sql_param building_id; log_user_id := sql_param user_id |}.

(** An edit that names no revision, and a database with no building 2. *)
Definition edit_without_revision : obj :=
  {[ "building_id" := num 1; "size_storeys_core" := num 4 ]}.

(** ** IEEE equality *)

Lemma SFeqb_refl (x : spec_float) : x ≠ S754_nan → SFeqb x x = true.
Proof.
  unfold SFeqb, SFcompare. destruct x as [[]|[]| |[] m e]; try done.
  - intros _. rewrite Z.compare_refl.
    change (Pos.compare_cont Eq m m) with (Pos.compare m m).
    by rewrite Pos.compare_refl.
  - intros _. rewrite Z.compare_refl.
    change (Pos.compare_cont Eq m m) with (Pos.compare m m).
    by rewrite Pos.compare_refl.
Qed.

(** ** [compare] *)

Lemma assign_reverse_patch :
  assign_name compare_scope "reverse_patch" = Throw (ReferenceError "reverse_patch").
Proof. vm_compute. reflexivity. Qed.

(** Every call stops at the first statement. *)
Lemma compare_unresolvable (old_obj new_obj : obj) (whitelist : gset string) :
  compare old_obj new_obj whitelist = Throw (ReferenceError "reverse_patch").
Proof. unfold compare. by rewrite assign_reverse_patch. Qed.

(** C3, as the code has it.  [compare] returns no patches, on any input: it
    throws a ReferenceError at [reverse_patch = {}].  So does the call with
    nothing to compare, where two empty mappings were to come back. *)
Theorem compare_never_returns (old_obj new_obj : obj) (whitelist : gset string) :
  (∀ patches, compare old_obj new_obj whitelist ≠ Normal patches)
  ∧ compare ∅ ∅ ∅ = Throw (ReferenceError "reverse_patch").
Proof.
  split.
  - intros patches. by rewrite compare_unresolvable.
  - apply compare_unresolvable.
Qed.



(** What the loop would return were it reached: the changed whitelisted
    keys, the new values forward and the old ones in reverse. *)
Example compare_loop_storeys :
  compare_loop storeys_3 storeys_4 BUILDING_FIELD_WHITELIST
  = ({[ "size_storeys_core" := num 4 ]}, {[ "size_storeys_core" := num 3 ]}).
Proof. vm_compute. reflexivity. Qed.

(** A key [old_obj] lacks is read through to [Object.prototype]. *)
Example compare_loop_inherited :
  compare_loop ∅ {[ "constructor" := VNull ]} {[ "constructor" ]}
  = ({[ "constructor" := VNull ]}, {[ "constructor" := VRef 1 ]}).
Proof. vm_compute. reflexivity. Qed.

(** An own [__proto__] of [new_obj] differs from the inherited one and is
    whitelisted here, yet leaves both patches empty. *)
Example compare_loop_proto :
  compare_loop ∅ {[ "__proto__" := num 1 ]} {[ "__proto__" ]} = (∅, ∅).
Proof. vm_compute. reflexivity. Qed.

(** ** Tasks and transactions *)

Lemma and_then_resolved {A B : Type} (p : task A) (k : A → task B) d b d' :
  (p ≫= k) d = (Resolved b, d') →
  ∃ a d1, p d = (Resolved a, d1) ∧ k a d1 = (Resolved b, d').
Proof.
  unfold mbind, task_bind, and_then.
  destruct (p d) as [[a|e] d1]; [eauto|done].
Qed.

(** A statement that is sent runs on the same data. *)
Lemma send_cases {A : Type} (statement : db → outcome A * db) d :
  send statement d = (Rejected connection_lost, d)
  ∨ ∃ d0, tables d0 = tables d ∧ logs_log_id_seq d0 = logs_log_id_seq d
          ∧ begun d0 = begun d ∧ send statement d = statement d0.
Proof.
  unfold send. destruct (link d) as [[|n]|]; [by left| |]; right.
  - by exists (with_link (Some n) d).
  - by exists d.
Qed.

Lemma send_resolved {A : Type} (statement : db → outcome A * db) d a d' :
  send statement d = (Resolved a, d') →
  ∃ d0, tables d0 = tables d ∧ logs_log_id_seq d0 = logs_log_id_seq d
        ∧ begun d0 = begun d ∧ statement d0 = (Resolved a, d').
Proof.
  destruct (send_cases statement d) as [->|(d0 & ? & ? & ? & ->)]; [done|eauto 6].
Qed.

Lemma one_resolved (statement : db → outcome (list obj) * db) d row d' :
  one statement d = (Resolved row, d') →
  ∃ d0, tables d0 = tables d ∧ logs_log_id_seq d0 = logs_log_id_seq d
        ∧ begun d0 = begun d ∧ statement d0 = (Resolved [row], d').
Proof.
  unfold one. intros (rows & d1 & Hsend & Hrows)%and_then_resolved.
  apply send_resolved in Hsend as (d0 & ? & ? & ? & Hst).
  exists d0. destruct rows as [|r [|]]; simpl in Hrows; simplify_eq.
  split_and!; unfold tables; congruence.
Qed.

Lemma none_resolved (statement : db → outcome (list obj) * db) d u d' :
  none statement d = (Resolved u, d') →
  ∃ d0, tables d0 = tables d ∧ logs_log_id_seq d0 = logs_log_id_seq d
        ∧ begun d0 = begun d ∧ statement d0 = (Resolved [], d').
Proof.
  unfold none. intros (rows & d1 & Hsend & Hrows)%and_then_resolved.
  apply send_resolved in Hsend as (d0 & ? & ? & ? & Hst).
  exists d0. destruct rows as [|r ?]; simpl in Hrows; simplify_eq.
  split_and!; unfold tables; congruence.
Qed.

Lemma begin_cases options d :
  ∃ o d1, begin options d = (o, d1) ∧ tables d1 = tables d
          ∧ logs_log_id_seq d1 = logs_log_id_seq d
          ∧ begun d1 = begun d ++ [options !! "mode"].
Proof.
  unfold begin, send. simpl. destruct (link d) as [[|n]|]; eauto 10.
Qed.

(** A transaction that rejects leaves every table as it found it. *)
Lemma tx_rejected {A : Type} options (cb : task A) d e d' :
  tx options cb d = (Rejected e, d') → tables d' = tables d.
Proof.
  unfold tx. destruct (begin_cases options d) as (o & d1 & -> & Htab & _).
  destruct o as [[]|e1]; [|by intros [= _ <-]].
  destruct (cb d1) as [[a|e2] d2]; [|by intros [= _ <-]].
  destruct (commit d2) as [[[]|e3] d3]; [done|by intros [= _ <-]].
Qed.

(** A transaction that resolves has run its callback to the end, on the data
    it found, and has kept what the callback wrote. *)
Lemma tx_resolved {A : Type} options (cb : task A) d a d' :
  tx options cb d = (Resolved a, d') →
  ∃ d1 d2, tables d1 = tables d ∧ logs_log_id_seq d1 = logs_log_id_seq d
           ∧ cb d1 = (Resolved a, d2) ∧ tables d' = tables d2.
Proof.
  unfold tx. destruct (begin_cases options d) as (o & d1 & -> & Htab & Hseq & _).
  destruct o as [[]|e1]; [|done].
  destruct (cb d1) as [[a'|e2] d2] eqn:Hcb; [|done].
  destruct (commit d2) as [[[]|e3] d3] eqn:Hc; [|done].
  intros [= -> ->]. exists d1, d2. split_and!; try done.
  unfold commit in Hc. by apply send_resolved in Hc as (d0 & ? & _ & _ & [= <-]).
Qed.

(** ** [saveBuilding] *)

Lemma get_singleton k v : get {[ k := v ]} k = v.
Proof. unfold get. by rewrite lookup_singleton_eq. Qed.

(** The callback never resolves: when the SELECT has found its row, [compare]
    throws. *)
Lemma save_steps_rejects building_id previous_revision_id building user_id d row d' :
  save_steps building_id previous_revision_id building user_id d ≠ (Resolved row, d').
Proof.
  unfold save_steps.
  intros (old_building & d1 & _ & Hrest)%and_then_resolved.
  apply and_then_resolved in Hrest as (patches & d2 & Hcmp & _).
  unfold callback in Hcmp. by rewrite compare_unresolvable in Hcmp.
Qed.


Lemma saveBuilding_result building_id building user_id d :
  (saveBuilding building_id building user_id d).1.1 = None.
Proof.
  unfold saveBuilding.
  destruct (tx _ _ d) as [[row|e] d'] eqn:Htx; simpl; [|done].
  apply tx_resolved in Htx as (d1 & d2 & _ & _ & Hcb & _).
  by apply save_steps_rejects in Hcb.
Qed.

Lemma saveBuilding_needs_row building_id building user_id d :
  (∀ row, row ∈ buildings d →
          is_revision building_id (get building "revision_id") row = false) →
  (saveBuilding building_id building user_id d).1.1 = None.
Proof. intros _. apply saveBuilding_result. Qed.

Lemma saveBuilding_undefined building_id building user_id d building' d' :
  saveBuilding building_id building user_id d = (None, building', d') →
  tables d' = tables d.
Proof.
  unfold saveBuilding.
  destruct (tx _ _ d) as [[row|e] d1] eqn:Htx; simpl; [done|].
  intros [= _ <-]. by eapply tx_rejected.
Qed.

Lemma elem_of_singleton_filter {A : Type} (P : A → Prop) `{∀ x, Decision (P x)}
    (l : list A) (x : A) :
  filter P l = [x] → x ∈ l ∧ P x.
Proof.
  intros Hf. assert (Hx : x ∈ filter P l) by (rewrite Hf; apply list_elem_of_here).
  by apply list_elem_of_filter in Hx as [? ?].
Qed.

(** C1, as the code has it.  When no stored row has both the identifier and
    the revision the caller read, [saveBuilding] resolves to [undefined], the
    value every other failure of the transaction resolves to, and leaves
    every table as it was. *)
Theorem saveBuilding_no_match building_id building user_id d :
  (∀ row, row ∈ buildings d →
          is_revision building_id (get building "revision_id") row = false) →
  (saveBuilding building_id building user_id d).1.1 = None
  ∧ tables (saveBuilding building_id building user_id d).2 = tables d.
Proof.
  intros Hnone.
  pose proof (saveBuilding_needs_row building_id building user_id d Hnone) as Hres.
  split; [done|].
  destruct (saveBuilding building_id building user_id d) as [[result b'] d'] eqn:Hsave.
  simpl in *. subst result. by eapply saveBuilding_undefined.
Qed.



(** C10.  Whatever becomes of the transaction, the caller's object comes
    back without [building_id], [revision_id] and [geometry_id], and with
    every other property as it was. *)
Theorem saveBuilding_strips_caller_object building_id building user_id d :
  let '(_, building', _) := saveBuilding building_id building user_id d in
  building' !! "building_id" = None
  ∧ building' !! "revision_id" = None
  ∧ building' !! "geometry_id" = None
  ∧ ∀ k, k ≠ "building_id" → k ≠ "revision_id" → k ≠ "geometry_id" →
         building' !! k = building !! k.
Proof.
  unfold saveBuilding. destruct (tx _ _ d) as [settled d']. unfold strip_read_only.
  cbv beta iota. split_and!.
  - do 2 (rewrite lookup_delete_ne by done). apply lookup_delete_eq.
  - rewrite lookup_delete_ne by done. apply lookup_delete_eq.
  - apply lookup_delete_eq.
  - intros k ? ? ?. by do 3 (rewrite lookup_delete_ne by done).
Qed.

(** ** [likeBuilding] *)

(** C6, as the code has it.  When the principal's like of the record is
    already in the table, [likeBuilding] resolves to [undefined], the value
    every other failure of the transaction resolves to; it appends no log
    entry and changes no table, so the like count stays. *)
Theorem likeBuilding_second_like building_id user_id d :
  (∃ l, l ∈ building_user_likes d ∧ has_liked building_id user_id l = true) →
  (likeBuilding building_id user_id d).1 = None
  ∧ tables (likeBuilding building_id user_id d).2 = tables d.
Proof.
  intros (l & Hin & Hliked). unfold likeBuilding.
  destruct (tx _ _ d) as [[row|e] d'] eqn:Htx; simpl.
  - apply tx_resolved in Htx as (d1 & d2 & Ht1 & _ & Hcb & _).
    unfold like_steps in Hcb.
    apply and_then_resolved in Hcb as ([] & d3 & Hins & _).
    apply none_resolved in Hins as (d0 & Ht0 & _ & _ & Hins).
    unfold insert_like in Hins.
    assert (Hex : existsb (has_liked building_id user_id) (building_user_likes d0) = true).
    { apply existsb_exists. exists l. split; [|done]. apply list_elem_of_In.
      unfold tables in *. congruence. }
    by rewrite Hex in Hins.
  - split; [done|]. by eapply tx_rejected.
Qed.

Lemma send_keeps_begun {A : Type} (statement : db → outcome A * db) :
  keeps_begun statement → keeps_begun (send statement).
Proof.
  intros Hst d. unfold send. destruct (link d) as [[|n]|]; [done| |done].
  by rewrite Hst.
Qed.

Lemma and_then_keeps_begun {A B : Type} (p : task A) (k : A → task B) :
  keeps_begun p → (∀ a, keeps_begun (k a)) → keeps_begun (p ≫= k).
Proof.
  intros Hp Hk d. unfold mbind, task_bind, and_then.
  specialize (Hp d). destruct (p d) as [[a|e] d1]; simpl in *; [|done].
  by rewrite Hk.
Qed.

Lemma one_keeps_begun statement : keeps_begun statement → keeps_begun (one statement).
Proof.
  intros Hst. apply and_then_keeps_begun; [by apply send_keeps_begun|].
  by intros [|r [|]] d.
Qed.

Lemma none_keeps_begun statement : keeps_begun statement → keeps_begun (none statement).
Proof.
  intros Hst. apply and_then_keeps_begun; [by apply send_keeps_begun|].
  by intros [|r ?] d.
Qed.

Lemma like_steps_keeps_begun building_id user_id :
  keeps_begun (like_steps building_id user_id).
Proof.
  unfold like_steps.
  apply and_then_keeps_begun; [apply none_keeps_begun|intros _].
  { intros d. unfold insert_like. by destruct (existsb _ _). }
  apply and_then_keeps_begun; [by apply one_keeps_begun|intros building].
  apply and_then_keeps_begun; [by apply one_keeps_begun|intros revision].
  by apply one_keeps_begun.
Qed.

(** [db.tx] issues one BEGIN, in the mode found under the [mode] key. *)
Lemma tx_begun {A : Type} options (cb : task A) d :
  keeps_begun cb → begun (tx options cb d).2 = begun d ++ [options !! "mode"].
Proof.
  intros Hcb. unfold tx.
  destruct (begin_cases options d) as (o & d1 & -> & _ & _ & Hb).
  destruct o as [[]|e1]; [|done].
  specialize (Hcb d1). destruct (cb d1) as [[a|e2] d2]; simpl in *; [|congruence].
  pose proof (send_keeps_begun (A:=unit) (λ d, (Resolved tt, d)) (λ _, eq_refl) d2) as Hc.
  fold commit in Hc. destruct (commit d2) as [[[]|e3] d3]; simpl in *; congruence.
Qed.

(** C7, as the code has it.  The transaction of [likeBuilding] is begun
    without a mode: the options object carries the serializable mode under
    the key [serializable], where [db.tx] does not look. *)
Theorem likeBuilding_begins_without_mode building_id user_id d :
  begun (likeBuilding building_id user_id d).2 = begun d ++ [None].
Proof.
  unfold likeBuilding.
  pose proof (tx_begun {[ "serializable" := serializable ]}
                (like_steps building_id user_id) d
                (like_steps_keeps_begun building_id user_id)) as Hb.
  destruct (tx _ _ d) as [settled d']. simpl in *. by rewrite Hb.
Qed.

(** Had the options object been [{mode: serializable}], the BEGIN would have
    carried the mode. *)
Lemma tx_mode_option_begins_serializable {A : Type} (cb : task A) d :
  keeps_begun cb →
  begun (tx {[ "mode" := serializable ]} cb d).2 = begun d ++ [Some serializable].
Proof. intros Hcb. by rewrite tx_begun. Qed.

(** A revision written by the store matches an expected revision only when
    the two are the same text. *)
Lemma sql_eq_bigint n revision_id :
  sql_eq (bigint n) revision_id = true → revision_id = bigint n.
Proof.
  unfold sql_eq, bigint.
  destruct revision_id as [| |b|x|s|l]; simpl; try done.
  intros Heq%String.eqb_eq. by rewrite Heq.
Qed.

(** ** The worked history *)

Example bigint_6 : bigint 6 = VStr "6".
Proof. reflexivity. Qed.

(** Bob's edit, made against revision 5, is refused and changes nothing. *)
Example bob_is_stale :
  saveBuilding (num 1) edit_to_5 (VStr "bob") db_at_6
  = (None, {[ "size_storeys_core" := num 5 ]},
     {| buildings := buildings db_at_6; logs := logs db_at_6;
        building_user_likes := []; logs_log_id_seq := 7; link := None;
        begun := [None; None] |}).
Proof. vm_compute. reflexivity. Qed.

(** C1, counterexample.  Bob's stale call and a call that never reached the
    store resolve to the same [undefined]: nothing the caller can compute
    from the result tells the conflict from the outage. *)
Lemma saveBuilding_conflict_is_undefined :
  let stale := (saveBuilding (num 1) edit_to_5 (VStr "bob") db_at_6).1.1 in
  let outage := (saveBuilding (num 1) edit_to_4 (VStr "alice") db_at_5_down).1.1 in
  stale = None ∧ outage = None
  ∧ ¬ ∃ is_conflict : option obj → bool,
        is_conflict stale = true ∧ is_conflict outage = false.
Proof.
  assert (Hstale : (saveBuilding (num 1) edit_to_5 (VStr "bob") db_at_6).1.1 = None)
    by (vm_compute; reflexivity).
  assert (Houtage :
    (saveBuilding (num 1) edit_to_4 (VStr "alice") db_at_5_down).1.1 = None)
    by (vm_compute; reflexivity).
  cbv zeta. rewrite Hstale, Houtage. split_and!; [done..|].
  intros (is_conflict & Hc & Ho). congruence.
Qed.

Lemma saveBuilding_no_match_witness :
  (∀ row, row ∈ buildings db_at_6 →
          is_revision (num 1) (get edit_to_5 "revision_id") row = false)
  ∧ (saveBuilding (num 1) edit_to_5 (VStr "bob") db_at_6).1.1 = None
  ∧ tables (saveBuilding (num 1) edit_to_5 (VStr "bob") db_at_6).2 = tables db_at_6.
Proof.
  assert (Hrows : ∀ row, row ∈ buildings db_at_6 →
            is_revision (num 1) (get edit_to_5 "revision_id") row = false).
  { intros row Hin. apply list_elem_of_singleton in Hin as ->.
    vm_compute. reflexivity. }
  split; [exact Hrows|].
  exact (saveBuilding_no_match (num 1) edit_to_5 (VStr "bob") db_at_6 Hrows).
Defined.

(** Alice likes building 1, then likes it again. *)
Example alice_likes :
  (likeBuilding (num 1) (VStr "alice") db_at_5).1
  = Some {[ "building_id" := num 1; "revision_id" := bigint 6;
            "geometry_id" := num 7; "size_storeys_core" := num 3;
            "likes_total" := bigint 1 ]}
  ∧ building_user_likes db_liked
    = [ {| like_building_id := num 1; like_user_id := VStr "alice" |} ]
  ∧ length (logs db_liked) = 1%nat.
Proof. vm_compute. done. Qed.

(** C6, counterexample.  Alice's second like and a first like that never
    reached the store resolve to the same [undefined]. *)
Lemma likeBuilding_duplicate_is_undefined :
  let again := (likeBuilding (num 1) (VStr "alice") db_liked).1 in
  let outage := (likeBuilding (num 1) (VStr "alice") db_at_5_down).1 in
  again = None ∧ outage = None
  ∧ ¬ ∃ is_already_liked : option obj → bool,
        is_already_liked again = true ∧ is_already_liked outage = false.
Proof.
  assert (Hagain : (likeBuilding (num 1) (VStr "alice") db_liked).1 = None)
    by (vm_compute; reflexivity).
  assert (Houtage : (likeBuilding (num 1) (VStr "alice") db_at_5_down).1 = None)
    by (vm_compute; reflexivity).
  cbv zeta. rewrite Hagain, Houtage. split_and!; [done..|].
  intros (f & Hc & Ho). congruence.
Qed.

Lemma likeBuilding_second_like_witness :
  (∃ l, l ∈ building_user_likes db_liked ∧ has_liked (num 1) (VStr "alice") l = true)
  ∧ (likeBuilding (num 1) (VStr "alice") db_liked).1 = None
  ∧ tables (likeBuilding (num 1) (VStr "alice") db_liked).2 = tables db_liked.
Proof.
  assert (Hliked : ∃ l, l ∈ building_user_likes db_liked
                        ∧ has_liked (num 1) (VStr "alice") l = true).
  { exists {| like_building_id := num 1; like_user_id := VStr "alice" |}.
    split; [|vm_compute; reflexivity].
    replace (building_user_likes db_liked)
      with [ {| like_building_id := num 1; like_user_id := VStr "alice" |} ]
      by (vm_compute; reflexivity).
    apply list_elem_of_here. }
  split; [exact Hliked|].
  exact (likeBuilding_second_like (num 1) (VStr "alice") db_liked Hliked).
Defined.

(** C7, at a call: the one BEGIN of alice's like carries no mode. *)
Example alice_likes_in_default_mode :
  begun (likeBuilding (num 1) (VStr "alice") db_at_5).2 = [None]
  ∧ [None] ≠ [Some serializable].
Proof. split; [vm_compute; reflexivity|done]. Qed.

(** ** More on [saveBuilding] *)

(** X7.  An object with no [revision_id], or with [null] there, is never
    saved: the expected revision goes to the store as NULL, which no row
    equals, so the call resolves to [undefined] and changes no table. *)
Theorem saveBuilding_without_revision building_id building user_id d :
  sql_param (get building "revision_id") = VNull →
  (saveBuilding building_id building user_id d).1.1 = None
  ∧ tables (saveBuilding building_id building user_id d).2 = tables d.
Proof.
  intros Hnull.
  assert (Hres : (saveBuilding building_id building user_id d).1.1 = None).
  { apply saveBuilding_needs_row. intros row _.
    unfold is_revision, sql_eq at 2. rewrite Hnull.
    rewrite andb_false_iff. right. by destruct (get row "revision_id"). }
  split; [done|].
  destruct (saveBuilding building_id building user_id d) as [[result b'] d'] eqn:Hsave.
  simpl in *. subst result. by eapply saveBuilding_undefined.
Qed.

Lemma saveBuilding_without_revision_witness :
  sql_param (get edit_without_revision "revision_id") = VNull
  ∧ (saveBuilding (num 1) edit_without_revision (VStr "alice") db_at_5).1.1 = None
  ∧ tables (saveBuilding (num 1) edit_without_revision (VStr "alice") db_at_5).2
    = tables db_at_5.
Proof.
  assert (H : sql_param (get edit_without_revision "revision_id") = VNull)
    by (vm_compute; reflexivity).
  split; [exact H|].
  exact (saveBuilding_without_revision (num 1) edit_without_revision (VStr "alice")
           db_at_5 H).
Defined.

(** ** More on [likeBuilding] *)

Lemma likeBuilding_undefined building_id user_id d d' :
  likeBuilding building_id user_id d = (None, d') → tables d' = tables d.
Proof.
  unfold likeBuilding.
  destruct (tx _ _ d) as [[row|e] d1] eqn:Htx; simpl; [done|].
  intros [= <-]. by eapply tx_rejected.
Qed.

(** What the four statements have done when the callback resolves. *)
Lemma like_steps_resolved building_id user_id d row d' :
  like_steps building_id user_id d = (Resolved row, d') →
  let like := {| like_building_id := sql_param building_id;
                 like_user_id := sql_param user_id |} in
  let likes := bigint (Z.of_nat (length
                 (filter (λ l, sql_eq (like_building_id l) building_id = true)
                         (building_user_likes d ++ [like])))) in
  let revision_id := bigint (logs_log_id_seq d) in
  ∃ old_building,
    existsb (has_liked building_id user_id) (building_user_likes d) = false
    ∧ filter (λ r, is_building building_id r = true) (buildings d) = [old_building]
    ∧ building_user_likes d' = building_user_likes d ++ [like]
    ∧ logs d' = logs d ++ [like_entry building_id user_id likes (logs_log_id_seq d)]
    ∧ buildings d'
      = (λ r, if is_building building_id r
              then set_likes revision_id likes r else r) <$> buildings d
    ∧ row = set_likes revision_id likes old_building.
Proof.
  unfold like_steps.
  intros ([] & d1 & Hins & Hrest)%and_then_resolved.
  apply and_then_resolved in Hrest as (building & d2 & Hcnt & Hrest).
  apply and_then_resolved in Hrest as (revision & d3 & Hlog & Hupd).
  apply none_resolved in Hins as (e0 & Ht0 & Hs0 & _ & Hins).
  apply one_resolved in Hcnt as (e1 & Ht1 & Hs1 & _ & Hcnt).
  apply one_resolved in Hlog as (e2 & Ht2 & Hs2 & _ & Hlog).
  apply one_resolved in Hupd as (e3 & Ht3 & Hs3 & _ & Hupd).
  unfold insert_like in Hins.
  destruct (existsb _ (building_user_likes e0)) eqn:Hex; [done|].
  unfold count_likes in Hcnt. unfold insert_log in Hlog.
  unfold update_likes, with_buildings in Hupd. unfold tables in *.
  injection Hins as <-. injection Hcnt as <- <-. injection Hlog as <- <-.
  injection Hupd as Hupd <-. simpl in *. rewrite !get_singleton in *.
  injection Ht0 as Hb0 Hl0 Hk0. injection Ht1 as Hb1 Hl1 Hk1.
  injection Ht2 as Hb2 Hl2 Hk2. injection Ht3 as Hb3 Hl3 Hk3.
  rewrite Hk0 in Hk1, Hex. rewrite Hk1 in Hk2, Hl3, Hupd. rewrite Hk2 in Hk3.
  rewrite Hs0 in Hs1. rewrite Hs1 in Hs2. rewrite Hs2 in Hl3, Hupd.
  rewrite Hb0 in Hb1. rewrite Hb1 in Hb2. rewrite Hb2 in Hb3. rewrite Hb3 in Hupd.
  rewrite Hl0 in Hl1. rewrite Hl1 in Hl2. rewrite Hl2 in Hl3.
  rewrite Hk3, Hl3, Hb3, Hs2, Hk1.
  destruct (filter _ (buildings d)) as [|old_building [|]] eqn:Hsel; try done.
  injection Hupd as <-. exists old_building. by unfold like_entry.
Qed.

Lemma likeBuilding_resolved building_id user_id d row d' :
  likeBuilding building_id user_id d = (Some row, d') →
  let like := {| like_building_id := sql_param building_id;
                 like_user_id := sql_param user_id |} in
  let likes := bigint (Z.of_nat (length
                 (filter (λ l, sql_eq (like_building_id l) building_id = true)
                         (building_user_likes d ++ [like])))) in
  let revision_id := bigint (logs_log_id_seq d) in
  ∃ old_building,
    existsb (has_liked building_id user_id) (building_user_likes d) = false
    ∧ filter (λ r, is_building building_id r = true) (buildings d) = [old_building]
    ∧ building_user_likes d' = building_user_likes d ++ [like]
    ∧ logs d' = logs d ++ [like_entry building_id user_id likes (logs_log_id_seq d)]
    ∧ buildings d'
      = (λ r, if is_building building_id r
              then set_likes revision_id likes r else r) <$> buildings d
    ∧ row = set_likes revision_id likes old_building.
Proof.
  unfold likeBuilding.
  destruct (tx _ _ d) as [[row'|e] d1] eqn:Htx; simpl; [|done].
  intros [= -> ->].
  apply tx_resolved in Htx as (d1 & d2 & Ht1 & Hs1 & Hcb & Ht2).
  apply like_steps_resolved in Hcb
    as (old_building & Hex & Hsel & Hlk & Hlogs & Hb & Hrow).
  unfold tables in *. injection Ht1 as Hb1 Hl1 Hk1. injection Ht2 as Hb2 Hl2 Hk2.
  exists old_building. simpl.
  rewrite Hb2, Hl2, Hk2, Hb, Hlogs, Hlk, <-Hb1, <-Hl1, <-Hk1, <-Hs1.
  by split_and!.
Qed.

Lemma get_set_likes revision_id likes row :
  get (set_likes revision_id likes row) "revision_id" = sql_param revision_id
  ∧ get (set_likes revision_id likes row) "likes_total" = sql_param likes
  ∧ get (set_likes revision_id likes row) "building_id" = get row "building_id".
Proof.
  unfold set_likes, get. split_and!.
  - by rewrite lookup_insert_ne, lookup_insert_eq.
  - by rewrite lookup_insert_eq.
  - by rewrite !lookup_insert_ne.
Qed.

Lemma SFeqb_nan_r (x : spec_float) : SFeqb x S754_nan = false.
Proof. by destruct x as [[]|[]| |[] ? ?]. Qed.

(** A parameter that some column equals is a scalar, and equals itself. *)
Lemma sql_eq_param_refl (column param : value) :
  sql_eq column param = true → sql_eq (sql_param param) param = true.
Proof.
  unfold sql_eq. destruct column as [| |b|x|s|l], param as [| |b'|y|s'|l'];
    simpl; try done; intros Heq.
  - by destruct b'.
  - destruct y as [?|?| |? ? ?]; try (by rewrite SFeqb_refl).
    by rewrite SFeqb_nan_r in Heq.
  - by rewrite String.eqb_refl.
Qed.

(** X8.  [likeBuilding] is all or nothing.  A call that resolves to a row has
    recorded one like, appended one log entry (its forward patch the new
    total, its reverse patch NULL) and advanced the record to that entry; a
    call that resolves to [undefined] has changed no table. *)
Theorem likeBuilding_all_or_nothing building_id user_id d :
  let '(result, d') := likeBuilding building_id user_id d in
  match result with
  | Some row =>
      ∃ entry like,
        logs d' = logs d ++ [entry]
        ∧ building_user_likes d' = building_user_likes d ++ [like]
        ∧ row ∈ buildings d'
        ∧ get row "revision_id" = bigint (log_id entry)
        ∧ forward_patch entry = {[ "likes_total" := get row "likes_total" ]}
        ∧ reverse_patch entry = None
  | None => tables d' = tables d
  end.
Proof.
  destruct (likeBuilding building_id user_id d) as [[row|] d'] eqn:Hlike.
  - apply likeBuilding_resolved in Hlike
      as (old_building & _ & Hsel & Hlk & Hlogs & Hb & Hrow).
    simpl in *. eexists _, _. split; [exact Hlogs|]. split; [exact Hlk|].
    destruct (get_set_likes (bigint (logs_log_id_seq d))
      (bigint (Z.of_nat (length (filter
         (λ l, sql_eq (like_building_id l) building_id = true)
         (building_user_likes d ++
            [{| like_building_id := sql_param building_id;
                like_user_id := sql_param user_id |}])))))
      old_building) as (Hrev & Htot & _).
    rewrite <-Hrow in Hrev, Htot. split_and!.
    + apply elem_of_singleton_filter in Hsel as [Hin Hhit].
      rewrite Hb. apply list_elem_of_fmap. exists old_building.
      by rewrite Hhit, Hrow.
    + by rewrite Hrev.
    + simpl. by rewrite Htot.
    + done.
  - by eapply likeBuilding_undefined.
Qed.

(** X9.  A like that goes through raises the count by exactly one, and the
    total written to the record is the number of likes the table then holds
    for the building. *)
Theorem likeBuilding_counts_likes building_id user_id d row :
  (likeBuilding building_id user_id d).1 = Some row →
  let d' := (likeBuilding building_id user_id d).2 in
  get row "likes_total" = bigint (likes_of building_id d')
  ∧ likes_of building_id d' = likes_of building_id d + 1.
Proof.
  destruct (likeBuilding building_id user_id d) as [result d'] eqn:Hlike.
  simpl. intros ->.
  apply likeBuilding_resolved in Hlike
    as (old_building & _ & Hsel & Hlk & _ & _ & Hrow).
  simpl in *. unfold likes_of. rewrite Hlk. split.
  - rewrite Hrow. by destruct (get_set_likes (bigint (logs_log_id_seq d))
      (bigint (Z.of_nat (length (filter
         (λ l, sql_eq (like_building_id l) building_id = true)
         (building_user_likes d ++
            [{| like_building_id := sql_param building_id;
                like_user_id := sql_param user_id |}])))))
      old_building) as (_ & -> & _).
  - apply elem_of_singleton_filter in Hsel as [_ Hhit].
    unfold is_building in Hhit. apply sql_eq_param_refl in Hhit.
    rewrite filter_app, length_app, filter_cons, decide_True by done.
    simpl. lia.
Qed.

Lemma likeBuilding_counts_likes_witness :
  (likeBuilding (num 1) (VStr "alice") db_at_5).1
  = Some (<[ "likes_total" := bigint 1 ]>
            (<[ "revision_id" := bigint 6 ]> building_1_at_5))
  ∧ let d' := (likeBuilding (num 1) (VStr "alice") db_at_5).2 in
    get (<[ "likes_total" := bigint 1 ]>
           (<[ "revision_id" := bigint 6 ]> building_1_at_5)) "likes_total"
    = bigint (likes_of (num 1) d')
    ∧ likes_of (num 1) d' = likes_of (num 1) db_at_5 + 1.
Proof.
  assert (H : (likeBuilding (num 1) (VStr "alice") db_at_5).1
              = Some (<[ "likes_total" := bigint 1 ]>
                        (<[ "revision_id" := bigint 6 ]> building_1_at_5)))
    by (vm_compute; reflexivity).
  split; [exact H|].
  exact (likeBuilding_counts_likes _ _ _ _ H).
Defined.

(** X10.  A like of a building the table does not hold is not kept: the
    UPDATE finds no row, the transaction rolls back, and the like that was
    inserted first is gone with it. *)
Theorem likeBuilding_missing_building building_id user_id d :
  (∀ row, row ∈ buildings d → is_building building_id row = false) →
  (likeBuilding building_id user_id d).1 = None
  ∧ tables (likeBuilding building_id user_id d).2 = tables d.
Proof.
  intros Hnone.
  destruct (likeBuilding building_id user_id d) as [[row|] d'] eqn:Hlike; simpl.
  - apply likeBuilding_resolved in Hlike as (old_building & _ & Hsel & _).
    apply elem_of_singleton_filter in Hsel as [Hin Hhit].
    rewrite (Hnone _ Hin) in Hhit. done.
  - split; [done|]. by eapply likeBuilding_undefined.
Qed.

Lemma likeBuilding_missing_building_witness :
  (∀ row, row ∈ buildings db_at_5 → is_building (num 2) row = false)
  ∧ (likeBuilding (num 2) (VStr "alice") db_at_5).1 = None
  ∧ tables (likeBuilding (num 2) (VStr "alice") db_at_5).2 = tables db_at_5.
Proof.
  assert (H : ∀ row, row ∈ buildings db_at_5 → is_building (num 2) row = false).
  { intros row Hin. apply list_elem_of_singleton in Hin as ->.
    vm_compute. reflexivity. }
  split; [exact H|].
  exact (likeBuilding_missing_building (num 2) (VStr "alice") db_at_5 H).
Defined.

(** X11.  A like outdates every edit in flight: once [likeBuilding] has
    resolved, a [saveBuilding] for that building made against any revision
    other than the one the like wrote resolves to [undefined]. *)
Theorem likeBuilding_outdates_edits building_id user_id d row building editor :
  (likeBuilding building_id user_id d).1 = Some row →
  get building "revision_id" ≠ bigint (logs_log_id_seq d) →
  (saveBuilding building_id building editor (likeBuilding building_id user_id d).2).1.1
  = None.
Proof.
  destruct (likeBuilding building_id user_id d) as [result d'] eqn:Hlike.
  simpl. intros -> Hold.
  apply likeBuilding_resolved in Hlike as (old_building & _ & _ & _ & _ & Hb & _).
  simpl in Hb. apply saveBuilding_needs_row. intros r Hin.
  rewrite Hb in Hin. apply list_elem_of_fmap in Hin as (r0 & -> & _).
  unfold is_revision.
  destruct (is_building building_id r0) eqn:Hhit.
  - match goal with |- context [set_likes ?a ?b r0] =>
      destruct (get_set_likes a b r0) as (Hrev & _ & _) end.
    rewrite Hrev. apply andb_false_intro2. apply not_true_is_false.
    intros Heq. apply Hold. by apply sql_eq_bigint.
  - unfold is_building in Hhit. by rewrite Hhit.
Qed.

Lemma likeBuilding_outdates_edits_witness :
  (likeBuilding (num 1) (VStr "alice") db_at_5).1
  = Some (<[ "likes_total" := bigint 1 ]>
            (<[ "revision_id" := bigint 6 ]> building_1_at_5))
  ∧ get edit_to_4 "revision_id" ≠ bigint (logs_log_id_seq db_at_5)
  ∧ (saveBuilding (num 1) edit_to_4 (VStr "bob")
       (likeBuilding (num 1) (VStr "alice") db_at_5).2).1.1 = None.
Proof.
  assert (H : (likeBuilding (num 1) (VStr "alice") db_at_5).1
              = Some (<[ "likes_total" := bigint 1 ]>
                        (<[ "revision_id" := bigint 6 ]> building_1_at_5)))
    by (vm_compute; reflexivity).
  assert (H' : get edit_to_4 "revision_id" ≠ bigint (logs_log_id_seq db_at_5))
    by (vm_compute; discriminate).
  split_and!; [exact H|exact H'|].
  exact (likeBuilding_outdates_edits _ _ _ _ edit_to_4 (VStr "bob") H H').
Defined.

(** ** The read functions *)

Lemma getBuildingById_cases id d :
  (link d = Some O ∧ getBuildingById id d = (None, d))
  ∨ (link d ≠ Some O
     ∧ ∃ d0, tables d0 = tables d
             ∧ getBuildingById id d
               = (match filter (λ row, is_building id row = true) (buildings d) with
                  | [row] => Some row
                  | _ => None
                  end, d0)).
Proof.
  unfold getBuildingById, one, mbind, task_bind, and_then, send, select_building.
  destruct (link d) as [[|n]|] eqn:Hlink.
  - by left.
  - right. split; [done|]. exists (with_link (Some n) d). split; [done|]. simpl.
    by destruct (filter _ (buildings d)) as [|? [|]].
  - right. split; [done|]. exists d. split; [done|].
    by destruct (filter _ (buildings d)) as [|? [|]].
Qed.

(** X12.  [getBuildingById] never writes, and it resolves to a row exactly
    when the connection carries the statement and exactly one stored row has
    the identifier; an unknown identifier, a duplicated one and a lost
    connection all come back as the same [undefined]. *)
Theorem getBuildingById_found_iff id d row :
  tables (getBuildingById id d).2 = tables d
  ∧ ((getBuildingById id d).1 = Some row
     ↔ link d ≠ Some O
       ∧ filter (λ r, is_building id r = true) (buildings d) = [row]).
Proof.
  destruct (getBuildingById_cases id d) as [[Hlink ->]|(Hlink & d0 & Ht & ->)]; simpl.
  - split; [done|]. split; [done|]. by intros [? _].
  - split; [done|].
    destruct (filter _ (buildings d)) as [|r [|]] eqn:Hsel.
    + split; [done|]. by intros [_ ?].
    + split; [by intros [= ->]|by intros [_ [= ->]]].
    + split; [done|]. by intros [_ ?].
Qed.

Lemma filter_fmap_keeps {A : Type} (P : A → Prop) `{∀ x, Decision (P x)}
    (g : A → A) (l : list A) :
  (∀ x, P (g x) ↔ P x) → filter P (g <$> l) = g <$> filter P l.
Proof.
  intros Hg. induction l as [|x l IH]; [done|].
  rewrite fmap_cons, !filter_cons, IH.
  destruct (decide (P x)) as [Hx|Hx].
  - by rewrite decide_True by by apply Hg.
  - by rewrite decide_False by by rewrite Hg.
Qed.

Lemma is_building_set_likes building_id revision_id likes row :
  is_building building_id (set_likes revision_id likes row)
  = is_building building_id row.
Proof.
  unfold is_building.
  by destruct (get_set_likes revision_id likes row) as (_ & _ & ->).
Qed.

(** X13.  Read your like.  When a [likeBuilding] has resolved to a row, a
    [getBuildingById] for that building that follows on a connection still
    up resolves to that same row. *)
Theorem read_your_like building_id user_id d row :
  (likeBuilding building_id user_id d).1 = Some row →
  link (likeBuilding building_id user_id d).2 ≠ Some O →
  (getBuildingById building_id (likeBuilding building_id user_id d).2).1 = Some row.
Proof.
  destruct (likeBuilding building_id user_id d) as [result d'] eqn:Hlike.
  simpl. intros -> Hlink.
  apply likeBuilding_resolved in Hlike as (old & _ & Hsel & _ & _ & Hb & Hrow).
  simpl in *.
  pose proof (elem_of_singleton_filter _ _ _ Hsel) as [_ Hhit].
  assert (Hone : filter (λ r, is_building building_id r = true) (buildings d') = [row]).
  { rewrite Hb, filter_fmap_keeps, Hsel; simpl.
    - by rewrite Hhit, Hrow.
    - intros r. destruct (is_building building_id r) eqn:Hr; [|by rewrite Hr].
      by rewrite is_building_set_likes, Hr. }
  destruct (getBuildingById_cases building_id d')
    as [[Hdown _]|(_ & d0 & _ & ->)]; [done|].
  by rewrite Hone.
Qed.

Lemma read_your_like_witness :
  (likeBuilding (num 1) (VStr "alice") db_at_5).1
  = Some (<[ "likes_total" := bigint 1 ]>
            (<[ "revision_id" := bigint 6 ]> building_1_at_5))
  ∧ link (likeBuilding (num 1) (VStr "alice") db_at_5).2 ≠ Some O
  ∧ (getBuildingById (num 1) (likeBuilding (num 1) (VStr "alice") db_at_5).2).1
    = Some (<[ "likes_total" := bigint 1 ]>
              (<[ "revision_id" := bigint 6 ]> building_1_at_5)).
Proof.
  assert (H1 : (likeBuilding (num 1) (VStr "alice") db_at_5).1
               = Some (<[ "likes_total" := bigint 1 ]>
                         (<[ "revision_id" := bigint 6 ]> building_1_at_5)))
    by (vm_compute; reflexivity).
  assert (H2 : link (likeBuilding (num 1) (VStr "alice") db_at_5).2 ≠ Some O)
    by (vm_compute; discriminate).
  split_and!; [exact H1|exact H2|].
  exact (read_your_like _ _ _ _ H1 H2).
Defined.

(** ** Histories *)

(** One call, as the two tables that only grow see it. *)
Lemma run_call_appends (c : call) d :
  ∃ new_logs new_likes,
    logs (run_call c d).2 = logs d ++ new_logs
    ∧ building_user_likes (run_call c d).2 = building_user_likes d ++ new_likes
    ∧ length new_logs = match (run_call c d).1 with Some _ => 1 | None => 0 end%nat.
Proof.
  destruct c as [building_id building user_id|building_id user_id]; simpl.
  - pose proof (saveBuilding_result building_id building user_id d) as Hres.
    destruct (saveBuilding building_id building user_id d)
      as [[result b'] d'] eqn:Hsave; simpl in *. subst result.
    apply saveBuilding_undefined in Hsave. unfold tables in Hsave.
    injection Hsave as _ Hl Hk. exists [], []. by rewrite Hl, Hk, !app_nil_r.
  - destruct (likeBuilding building_id user_id d) as [[row|] d'] eqn:Hlike; simpl.
    + apply likeBuilding_resolved in Hlike as (old' & _ & _ & Hlk & Hlogs & _).
      simpl in *. eexists [_], [_]. by rewrite Hlogs, Hlk.
    + apply likeBuilding_undefined in Hlike. unfold tables in Hlike.
      injection Hlike as _ Hl Hk. exists [], []. by rewrite Hl, Hk, !app_nil_r.
Qed.

(** X14.  Over any history of saves and likes, the log and the table of
    likes only grow at the end: no entry already there is changed or
    removed, and the log gains exactly one entry for each call that resolved
    to a row (a like, then: no save does) and none for the others. *)
Theorem run_calls_append_only (calls : list call) d :
  ∃ new_logs new_likes,
    logs (run_calls calls d).2 = logs d ++ new_logs
    ∧ building_user_likes (run_calls calls d).2 = building_user_likes d ++ new_likes
    ∧ length new_logs = resolved (run_calls calls d).1.
Proof.
  revert d. induction calls as [|c rest IH]; intros d.
  - exists [], []. by rewrite !app_nil_r.
  - cbn [run_calls].
    destruct (run_call_appends c d) as (l1 & k1 & Hl1 & Hk1 & Hn1).
    destruct (run_call c d) as [result d1]. simpl in *.
    destruct (IH d1) as (l2 & k2 & Hl2 & Hk2 & Hn2).
    destruct (run_calls rest d1) as [results d2]. simpl in *.
    exists (l1 ++ l2), (k1 ++ k2).
    rewrite Hl2, Hl1, Hk2, Hk1, !app_assoc. split_and!; [done..|].
    rewrite length_app, Hn1, Hn2. unfold resolved. rewrite filter_cons.
    destruct result; [by rewrite decide_True by done|].
    rewrite decide_False; [done|]. by intros [? ?].
Qed.

(** ** [queryBuildingsByReference] *)

Lemma strict_eq_string (key : value) s :
  strict_eq key (VStr s) = true ↔ key = VStr s.
Proof.
  destruct key as [| |?|?|t|?]; simpl; try by split.
  rewrite String.eqb_eq. split; [by intros ->|by intros [= ->]].
Qed.

(** X15.  [queryBuildingsByReference] takes its key as written, in lower
    case: for any key other than the strings [toid] and [uprn] (the very
    [UPRN] and [TOID] of its message among them) it sends nothing and hands
    back the error object itself, not a promise; for those two keys it hands
    back a promise, which settles to the rows, none included, when the
    statement resolves on a connection that is up. *)
Theorem queryBuildingsByReference_dispatch
    (select_by_toid select_by_uprn : value → db → outcome (list obj) * db)
    (key id : value) (d : db) :
  (key ≠ VStr "toid" → key ≠ VStr "uprn" →
   queryBuildingsByReference select_by_toid select_by_uprn key id d
   = (Returned {[ "error" := VStr "Key must be UPRN or TOID" ]}, d))
  ∧ (key = VStr "toid" ∨ key = VStr "uprn" →
     ∃ settled,
       (queryBuildingsByReference select_by_toid select_by_uprn key id d).1
       = Promised settled)
  ∧ (∀ rows d', link d = None →
       (key = VStr "toid" ∧ select_by_toid id d = (Resolved rows, d'))
       ∨ (key = VStr "uprn" ∧ select_by_uprn id d = (Resolved rows, d')) →
       queryBuildingsByReference select_by_toid select_by_uprn key id d
       = (Promised (Some rows), d')).
Proof.
  unfold queryBuildingsByReference, manyOrNone, send. split_and!.
  - intros Ht Hu.
    destruct (strict_eq key (VStr "toid")) eqn:H1;
      [by apply strict_eq_string in H1|].
    destruct (strict_eq key (VStr "uprn")) eqn:H2;
      [by apply strict_eq_string in H2|]. done.
  - intros [->| ->]; simpl.
    + destruct (link d) as [[|?]|]; [by eexists| |];
        by destruct (select_by_toid id _) as [[?|?] ?]; eexists.
    + destruct (link d) as [[|?]|]; [by eexists| |];
        by destruct (select_by_uprn id _) as [[?|?] ?]; eexists.
  - intros rows d' Hlink [[-> Hst]|[-> Hst]]; simpl; by rewrite Hlink, Hst.
Qed.

Lemma queryBuildingsByReference_dispatch_witness :
  VStr "TOID" ≠ VStr "toid" ∧ VStr "TOID" ≠ VStr "uprn"
  ∧ queryBuildingsByReference select_building select_building
      (VStr "TOID") (num 1) db_at_5
    = (Returned {[ "error" := VStr "Key must be UPRN or TOID" ]}, db_at_5).
Proof.
  assert (H1 : VStr "TOID" ≠ VStr "toid") by discriminate.
  assert (H2 : VStr "TOID" ≠ VStr "uprn") by discriminate.
  split_and!; [exact H1|exact H2|].
  exact (proj1 (queryBuildingsByReference_dispatch select_building select_building
                  (VStr "TOID") (num 1) db_at_5) H1 H2).
Defined.

(** ** Calls that follow one another *)

(** X17.  A like is kept once: after a [likeBuilding] has resolved, the same
    call again (the principal being a value the store can compare) resolves
    to [undefined] and changes no table. *)
Theorem likeBuilding_twice building_id user_id d row :
  (likeBuilding building_id user_id d).1 = Some row →
  sql_eq (sql_param user_id) user_id = true →
  let d1 := (likeBuilding building_id user_id d).2 in
  (likeBuilding building_id user_id d1).1 = None
  ∧ tables (likeBuilding building_id user_id d1).2 = tables d1.
Proof.
  destruct (likeBuilding building_id user_id d) as [result d1] eqn:Hlike.
  simpl. intros -> Huser.
  apply likeBuilding_resolved in Hlike as (old & _ & Hsel & Hlk & _).
  simpl in Hlk. apply elem_of_singleton_filter in Hsel as [_ Hhit].
  unfold is_building in Hhit. apply sql_eq_param_refl in Hhit.
  destruct (likeBuilding building_id user_id d1) as [[row2|] d2] eqn:Hagain; simpl.
  - apply likeBuilding_resolved in Hagain as (old2 & Hex & _).
    rewrite Hlk, existsb_app in Hex. simpl in Hex.
    unfold has_liked in Hex at 2. simpl in Hex.
    rewrite Hhit, Huser in Hex. simpl in Hex. by rewrite orb_true_r in Hex.
  - split; [done|]. by eapply likeBuilding_undefined.
Qed.

Lemma likeBuilding_twice_witness :
  (likeBuilding (num 1) (VStr "alice") db_at_5).1
  = Some (<[ "likes_total" := bigint 1 ]>
            (<[ "revision_id" := bigint 6 ]> building_1_at_5))
  ∧ sql_eq (sql_param (VStr "alice")) (VStr "alice") = true
  ∧ let d1 := (likeBuilding (num 1) (VStr "alice") db_at_5).2 in
    (likeBuilding (num 1) (VStr "alice") d1).1 = None
    ∧ tables (likeBuilding (num 1) (VStr "alice") d1).2 = tables d1.
Proof.
  assert (H1 : (likeBuilding (num 1) (VStr "alice") db_at_5).1
               = Some (<[ "likes_total" := bigint 1 ]>
                         (<[ "revision_id" := bigint 6 ]> building_1_at_5)))
    by (vm_compute; reflexivity).
  assert (H2 : sql_eq (sql_param (VStr "alice")) (VStr "alice") = true)
    by (vm_compute; reflexivity).
  split_and!; [exact H1|exact H2|].
  exact (likeBuilding_twice _ _ _ _ H1 H2).
Defined.
